(** * env-twin: the two package-manifest filters

    [modify_package.py] (the Script-Editor) and [remove_prettier.py] (the
    Dependency-Remover) read a JSON document from standard input, edit the
    parsed value in place and dump it to standard output with a 2-space
    indent.  This file embeds both scripts over a model of the Python values
    that [json.load] returns and proves the properties of their transforms. *)

From Stdlib Require Import List NArith ZArith String Ascii Bool Lia DecimalString.
Import ListNotations.

Set Implicit Arguments.

(** ** Python strings *)

(** A Python [str] is a sequence of Unicode code points. *)
Definition str := list N.

(** The [str] of an ASCII literal of the source. *)
Definition u (s : string) : str := map N_of_ascii (list_ascii_of_string s).

Arguments u : simpl never.

Definition LF : N := 10.
Definition SP : N := 32.

Fixpoint str_eqb (a b : str) : bool :=
  match a, b with
  | [], [] => true
  | x :: a', y :: b' => N.eqb x y && str_eqb a' b'
  | _, _ => false
  end.

Fixpoint str_startswith (s prefix : str) : bool :=
  match prefix, s with
  | [], _ => true
  | p :: prefix', c :: s' => N.eqb p c && str_startswith s' prefix'
  | _ :: _, [] => false
  end.

(** [sub in s] on two strings: substring search. *)
Fixpoint str_contains (s sub : str) : bool :=
  str_startswith s sub ||
  match s with
  | [] => false
  | _ :: s' => str_contains s' sub
  end.

(** [sep.join(parts)] *)
Fixpoint str_join (sep : str) (parts : list str) : str :=
  match parts with
  | [] => []
  | [p] => p
  | p :: rest => p ++ sep ++ str_join sep rest
  end.

(** ** Insertion-ordered dictionaries with [str] keys

    A Python [dict] keeps its keys in insertion order: assigning to an
    existing key replaces the value where the key stands, assigning to a new
    key appends it, deleting a key removes its entry. *)
Section Dict.
Variable V : Type.

Definition dict_of := list (str * V).

Fixpoint dict_get (k : str) (d : dict_of) : option V :=
  match d with
  | [] => None
  | (k', v) :: d' => if str_eqb k k' then Some v else dict_get k d'
  end.

(** [k in d] *)
Definition dict_contains (k : str) (d : dict_of) : bool :=
  match dict_get k d with Some _ => true | None => false end.

(** [d[k] = v] *)
Fixpoint dict_setitem (k : str) (v : V) (d : dict_of) : dict_of :=
  match d with
  | [] => [(k, v)]
  | (k', v') :: d' =>
      if str_eqb k k' then (k', v) :: d' else (k', v') :: dict_setitem k v d'
  end.

(** [del d[k]], for a key that is present.  The keys of a dict are unique,
    so this drops the one entry of [k] ([delitem_unique_keys] below). *)
Definition dict_delitem (k : str) (d : dict_of) : dict_of :=
  filter (fun kv => negb (str_eqb k (fst kv))) d.

Definition dict_keys (d : dict_of) : list str := map fst d.

(** The entries of [d] under keys other than those of [ks], in order. *)
Definition dict_without (ks : list str) (d : dict_of) : dict_of :=
  filter (fun kv => negb (existsb (str_eqb (fst kv)) ks)) d.
End Dict.

(** ** Values returned by [json.load] *)

(** [None], [bool], [int], [float], [str], [list] and [dict] with [str]
    keys.  A float is carried as the text [float.__repr__] gives for it,
    which is all the scripts ever do with one (they print it back). *)
#[warnings="-register-all"]
Inductive pyval :=
| VNone
| VBool (b : bool)
| VInt (z : Z)
| VFloat (repr : str)
| VStr (s : str)
| VList (l : list pyval)
| VDict (d : list (str * pyval)).

Definition dict := dict_of pyval.

Inductive exn :=
| TypeError
| KeyError.

(** [x == VStr k] for a value [x] produced by [json.load]. *)
Definition py_eq_str (k : str) (x : pyval) : bool :=
  match x with
  | VStr s => str_eqb k s
  | _ => false
  end.

(** [k in c] for a string [k]: key membership on a dict, element membership
    on a list, substring search on a string, [TypeError] on the rest
    ("argument of type ... is not iterable"). *)
Definition py_contains (k : str) (c : pyval) : exn + bool :=
  match c with
  | VDict d => inr (dict_contains k d)
  | VList l => inr (existsb (py_eq_str k) l)
  | VStr s => inr (str_contains s k)
  | VNone | VBool _ | VInt _ | VFloat _ => inl TypeError
  end.

(** [c[k]] for a string [k]. *)
Definition py_getitem (c : pyval) (k : str) : exn + pyval :=
  match c with
  | VDict d =>
      match dict_get k d with
      | Some v => inr v
      | None => inl KeyError
      end
  | _ => inl TypeError
  end.

(** [c[k] = v] for a string [k]; the result is the object after the
    assignment. *)
Definition py_setitem (c : pyval) (k : str) (v : pyval) : exn + pyval :=
  match c with
  | VDict d => inr (VDict (dict_setitem k v d))
  | _ => inl TypeError
  end.

(** [del c[k]] for a string [k]. *)
Definition py_delitem (c : pyval) (k : str) : exn + pyval :=
  match c with
  | VDict d =>
      if dict_contains k d then inr (VDict (dict_delitem k d)) else inl KeyError
  | _ => inl TypeError
  end.

(** ** [json.dump(data, sys.stdout, indent=2)]

    The encoder of the [json] module with its defaults ([ensure_ascii=True],
    item separator [","] and key separator [": "] once an indent is given). *)

Definition hex_digit (n : N) : N :=
  if (n <? 10)%N then (48 + n)%N else (87 + n)%N.

(** ['{0:04x}'.format(n)] for [n < 0x10000] *)
Definition hex4 (n : N) : str :=
  [hex_digit ((n / 4096) mod 16); hex_digit ((n / 256) mod 16);
   hex_digit ((n / 16) mod 16); hex_digit (n mod 16)]%N.

Definition BACKSLASH : N := 92.
Definition QUOTE : N := 34.

Definition unicode_escape (n : N) : str :=
  BACKSLASH :: 117%N :: hex4 n.

(** The replacement of one character by [py_encode_basestring_ascii]:
    characters in [' '..'~'] other than the quote and the backslash stand for
    themselves. *)
Definition escape_char (c : N) : str :=
  if (c =? BACKSLASH)%N then [BACKSLASH; BACKSLASH]
  else if (c =? QUOTE)%N then [BACKSLASH; QUOTE]
  else if (c =? 8)%N then [BACKSLASH; 98%N]
  else if (c =? 12)%N then [BACKSLASH; 102%N]
  else if (c =? 10)%N then [BACKSLASH; 110%N]
  else if (c =? 13)%N then [BACKSLASH; 114%N]
  else if (c =? 9)%N then [BACKSLASH; 116%N]
  else if ((32 <=? c) && (c <=? 126))%N then [c]
  else if (c <? 65536)%N then unicode_escape c
  else
    let n := (c - 65536)%N in
    unicode_escape (N.lor 55296 (N.land (N.shiftr n 10) 1023))
    ++ unicode_escape (N.lor 56320 (N.land n 1023)).

Definition encode_basestring_ascii (s : str) : str :=
  QUOTE :: flat_map escape_char s ++ [QUOTE].

(** [int.__repr__] *)
Definition int_repr (z : Z) : str := u (NilEmpty.string_of_int (Z.to_int z)).

(** [floatstr]: [float.__repr__] except for the three non-finite floats. *)
Definition floatstr (repr : str) : str :=
  if str_eqb repr (u "nan") then u "NaN"
  else if str_eqb repr (u "inf") then u "Infinity"
  else if str_eqb repr (u "-inf") then u "-Infinity"
  else repr.

Definition newline_indent (indent level : nat) : str :=
  LF :: repeat SP (indent * level).

Fixpoint iterencode (indent level : nat) (o : pyval) : str :=
  match o with
  | VStr s => encode_basestring_ascii s
  | VNone => u "null"
  | VBool true => u "true"
  | VBool false => u "false"
  | VInt z => int_repr z
  | VFloat r => floatstr r
  | VList [] => u "[]"
  | VList l =>
      u "[" ++ newline_indent indent (S level)
      ++ str_join (u "," ++ newline_indent indent (S level))
           (map (iterencode indent (S level)) l)
      ++ newline_indent indent level ++ u "]"
  | VDict [] => u "{}"
  | VDict d =>
      u "{" ++ newline_indent indent (S level)
      ++ str_join (u "," ++ newline_indent indent (S level))
           (map (fun kv => encode_basestring_ascii (fst kv) ++ u ": "
                           ++ iterencode indent (S level) (snd kv)) d)
      ++ newline_indent indent level ++ u "}"
  end.

Definition json_dumps (indent : nat) (data : pyval) : str :=
  iterencode indent 0 data.

(** ** The running script

    The scripts keep the parsed document in the global [data] and mutate it
    in place; [print(..., file=sys.stderr)] appends a line to standard
    error.  A statement either completes or raises, and what was printed
    before an exception stays printed. *)

Record state := mkState { data : pyval; err : str }.

Definition M (A : Type) : Type := state -> (exn + A) * state.

Definition ret {A} (a : A) : M A := fun st => (inr a, st).

Definition bind {A B} (m : M A) (f : A -> M B) : M B :=
  fun st =>
    match m st with
    | (inl e, st') => (inl e, st')
    | (inr a, st') => f a st'
    end.

Declare Scope py_scope.
Delimit Scope py_scope with py.
Notation "x <- m ;; k" := (bind m (fun x => k))
  (at level 61, m at next level, right associativity) : py_scope.
Notation "m ;; k" := (bind m (fun _ => k))
  (at level 61, right associativity) : py_scope.
Local Open Scope py_scope.

(** Lifts the outcome of an operation that does not touch the state. *)
Definition lift {A} (r : exn + A) : M A := fun st => (r, st).

Definition get_data : M pyval := fun st => (inr (data st), st).

Definition put_data (d : pyval) : M unit :=
  fun st => (inr tt, mkState d (err st)).

(** [print(text, file=sys.stderr)] *)
Definition print_stderr (text : str) : M unit :=
  fun st => (inr tt, mkState (data st) (err st ++ text ++ [LF])).

(** [k in data] *)
Definition data_contains (k : str) : M bool :=
  d <- get_data ;; lift (py_contains k d).

(** [data[k] = v] *)
Definition data_setitem (k : str) (v : pyval) : M unit :=
  d <- get_data ;; d' <- lift (py_setitem d k v) ;; put_data d'.

(** [k in data[f]] *)
Definition field_contains (f k : str) : M bool :=
  d <- get_data ;; o <- lift (py_getitem d f) ;; lift (py_contains k o).

(** [data[f][k] = v]: the object [data[f]] is mutated in place, so [data]
    holds the mutated object under [f] afterwards. *)
Definition field_setitem (f k : str) (v : pyval) : M unit :=
  d <- get_data ;;
  o <- lift (py_getitem d f) ;;
  o' <- lift (py_setitem o k v) ;;
  d' <- lift (py_setitem d f o') ;;
  put_data d'.

(** [del data[f][k]], in place as well. *)
Definition field_delitem (f k : str) : M unit :=
  d <- get_data ;;
  o <- lift (py_getitem d f) ;;
  o' <- lift (py_delitem o k) ;;
  d' <- lift (py_setitem d f o') ;;
  put_data d'.

Definition when (b : bool) (m : M unit) : M unit :=
  if b then m else ret tt.

(** ** Processes *)

(** What [json.load(sys.stdin)] does with the input: it raises
    [json.JSONDecodeError], whose [str()] is [msg], or it returns the parsed
    value. *)
Inductive load_result :=
| JSONDecodeError (msg : str)
| Loaded (value : pyval).

(** How the process ends: it runs off the end of the script, calls
    [sys.exit(code)], or dies of an exception nobody caught (the interpreter
    then prints a traceback to standard error). *)
Inductive termination :=
| Finished
| SysExit (code : Z)
| Uncaught (e : exn).

Definition exit_code (t : termination) : Z :=
  match t with
  | Finished => 0
  | SysExit code => code
  | Uncaught _ => 1
  end.

(** [stderr] is the text the script itself printed. *)
Record outcome := mkOutcome { stdout : str; stderr : str; term : termination }.

(** The statements of a script after the [try] block, followed by the
    [json.dump] of its last line. *)
Definition run_body (body : M unit) (d : pyval) : outcome :=
  match body (mkState d []) with
  | (inl e, st) => mkOutcome [] (err st) (Uncaught e)
  | (inr _, st) => mkOutcome (json_dumps 2 (data st)) (err st) Finished
  end.

(** The manifest a body leaves in [data], or the exception it raises. *)
Definition exec (body : M unit) (d : pyval) : exn + pyval :=
  match body (mkState d []) with
  | (inl e, _) => inl e
  | (inr _, st) => inr (data st)
  end.

(** Feeding the output manifest of one application to the next. *)
Definition and_then (r : exn + pyval) (f : pyval -> exn + pyval) : exn + pyval :=
  match r with
  | inl e => inl e
  | inr d => f d
  end.

(** ** modify_package.py *)
Module ModifyPackage.

(** [# Ensure 'scripts' key exists] *)
Definition ensure_scripts : M unit :=
  (* if 'scripts' not in data: data['scripts'] = {} *)
  present <- data_contains (u "scripts") ;;
  when (negb present) (data_setitem (u "scripts") (VDict [])).

(** [# Modify scripts] *)
Definition modify_scripts : M unit :=
  field_setitem (u "scripts") (u "build") (VStr (u "bun build.ts")) ;;
  (* if 'lint:format' in data['scripts']: del data['scripts']['lint:format'] *)
  stale <- field_contains (u "scripts") (u "lint:format") ;;
  when stale (field_delitem (u "scripts") (u "lint:format")) ;;
  field_setitem (u "scripts") (u "lint") (VStr (u "bun biome lint .")) ;;
  field_setitem (u "scripts") (u "lint:fix") (VStr (u "bun biome lint --apply .")) ;;
  field_setitem (u "scripts") (u "format") (VStr (u "bun biome format .")) ;;
  field_setitem (u "scripts") (u "format:fix") (VStr (u "bun biome format --write .")).

Definition body : M unit := ensure_scripts ;; modify_scripts.

Definition main (input : load_result) : outcome :=
  match input with
  | JSONDecodeError msg =>
      (* print(f"Error decoding JSON: {e}", file=sys.stderr); sys.exit(1) *)
      mkOutcome [] (u "Error decoding JSON: " ++ msg ++ [LF]) (SysExit 1)
  | Loaded d => run_body body d
  end.

Definition transform : pyval -> exn + pyval := exec body.

End ModifyPackage.

(** ** remove_prettier.py *)
Module RemovePrettier.

Definition body : M unit :=
  (* 'devDependencies' in data and 'prettier' in data['devDependencies'] *)
  present <- data_contains (u "devDependencies") ;;
  found <- (if present
            then field_contains (u "devDependencies") (u "prettier")
            else ret false) ;;
  if found then
    field_delitem (u "devDependencies") (u "prettier") ;;
    print_stderr (u "Removed prettier from devDependencies.")
  else
    print_stderr
      (u "prettier not found in devDependencies or devDependencies section missing.").

Definition main (input : load_result) : outcome :=
  match input with
  | JSONDecodeError msg =>
      mkOutcome [] (u "Error decoding JSON: " ++ msg ++ [LF]) (SysExit 1)
  | Loaded d => run_body body d
  end.

Definition transform : pyval -> exn + pyval := exec body.

End RemovePrettier.

(** ** Vocabulary of the properties *)

(** The manifest has no [scripts] field, or one that is a mapping. *)
Definition scripts_absent_or_mapping (d : dict) : Prop :=
  match dict_get (u "scripts") d with
  | None => True
  | Some (VDict _) => True
  | Some _ => False
  end.

(** The six keys the Script-Editor writes or removes. *)
Definition edited_keys : list str :=
  [u "build"; u "lint"; u "lint:fix"; u "format"; u "format:fix"; u "lint:format"].

(** The net effect of the statements under [# Modify scripts] on the
    [scripts] dict (proved below, [modify_scripts_run]). *)
Definition edit_scripts (s : dict) : dict :=
  dict_setitem (u "format:fix") (VStr (u "bun biome format --write ."))
    (dict_setitem (u "format") (VStr (u "bun biome format ."))
       (dict_setitem (u "lint:fix") (VStr (u "bun biome lint --apply ."))
          (dict_setitem (u "lint") (VStr (u "bun biome lint ."))
             (dict_delitem (u "lint:format")
                (dict_setitem (u "build") (VStr (u "bun build.ts")) s))))).

(** The invariant of [scripts] after the Script-Editor: the five fixed
    commands, and no [lint:format]. *)
Definition scripts_invariant (s : dict) : Prop :=
  dict_get (u "build") s = Some (VStr (u "bun build.ts")) /\
  dict_get (u "lint") s = Some (VStr (u "bun biome lint .")) /\
  dict_get (u "lint:fix") s = Some (VStr (u "bun biome lint --apply .")) /\
  dict_get (u "format") s = Some (VStr (u "bun biome format .")) /\
  dict_get (u "format:fix") s = Some (VStr (u "bun biome format --write .")) /\
  dict_contains (u "lint:format") s = false.

(** The manifest has a [devDependencies] field that is a mapping with the key
    [prettier]. *)
Definition has_prettier (d : dict) : bool :=
  match dict_get (u "devDependencies") d with
  | Some (VDict deps) => dict_contains (u "prettier") deps
  | _ => false
  end.

(** The manifests on which neither the membership test nor the deletion of
    the Dependency-Remover raises. *)
Definition prettier_test_safe (d : dict) : bool :=
  match dict_get (u "devDependencies") d with
  | None => true
  | Some (VDict _) => true
  | Some (VList l) => negb (existsb (py_eq_str (u "prettier")) l)
  | Some (VStr s) => negb (str_contains s (u "prettier"))
  | Some _ => false
  end.

Definition is_decode_error (input : load_result) : bool :=
  match input with
  | JSONDecodeError _ => true
  | Loaded _ => false
  end.

(** A line as [print] writes it. *)
Definition line (s : string) : str := u s ++ [LF].

Definition removed_line : str := line "Removed prettier from devDependencies.".

Definition not_found_line : str :=
  line "prettier not found in devDependencies or devDependencies section missing.".

(** The two filters, and the one top-level field each of them edits. *)
Inductive script :=
| modify_package
| remove_prettier.

Definition main_of (f : script) : load_result -> outcome :=
  match f with
  | modify_package => ModifyPackage.main
  | remove_prettier => RemovePrettier.main
  end.

Definition transform_of (f : script) : pyval -> exn + pyval :=
  match f with
  | modify_package => ModifyPackage.transform
  | remove_prettier => RemovePrettier.transform
  end.

Definition edited_field (f : script) : str :=
  match f with
  | modify_package => u "scripts"
  | remove_prettier => u "devDependencies"
  end.

(** A member of the top-level object as the dump lays it out: on a line of
    its own, behind two spaces. *)
Definition member_line (kv : str * pyval) : str :=
  [LF; SP; SP] ++ encode_basestring_ascii (fst kv) ++ u ": "
  ++ iterencode 2 1 (snd kv).

Definition indented_object (d : dict) : str :=
  match d with
  | [] => u "{}"
  | _ => u "{" ++ str_join (u ",") (map member_line d) ++ [LF] ++ u "}"
  end.

Definition is_dict (x : pyval) : bool :=
  match x with
  | VDict _ => true
  | _ => false
  end.

(** Manifests used as concrete inputs below. *)
Definition scenario_scripts : dict :=
  [(u "lint:format", VStr (u "x")); (u "test", VStr (u "y"))].

Definition scenario_manifest : dict := [(u "scripts", VDict scenario_scripts)].

Definition array_deps_manifest : dict :=
  [(u "devDependencies", VList [VStr (u "prettier")])].

Definition array_scripts_manifest : dict :=
  [(u "name", VStr (u "env-twin")); (u "scripts", VList [])].

Definition named_manifest : dict :=
  [(u "name", VStr (u "env-twin")); (u "scripts", VDict scenario_scripts);
   (u "devDependencies",
    VDict [(u "prettier", VStr (u "^3.0.0")); (u "typescript", VStr (u "^5.0.0"))])].

(** The five keys the Script-Editor always writes, in the order of its
    assignments. *)
Definition written_keys : list str :=
  [u "build"; u "lint"; u "lint:fix"; u "format"; u "format:fix"].

(** The keys of a dict as [json.load] builds it are pairwise distinct. *)
Definition unique_keys (d : dict) : Prop := NoDup (dict_keys d).

Definition array_manifest : pyval := VList [VInt 1; VStr (u "scripts")].

(** The characters of a 7-bit text file: the line feed and [' '..'~']. *)
Definition printable_ascii (c : N) : bool :=
  ((c =? LF) || ((32 <=? c) && (c <=? 126)))%N.

Definition ascii_text (s : str) : bool := forallb printable_ascii s.

(** Every float of the value carries an ASCII [repr], as [float.__repr__]
    only ever returns. *)
Fixpoint ascii_floats (v : pyval) : bool :=
  match v with
  | VFloat r => ascii_text r
  | VList l => forallb ascii_floats l
  | VDict d => forallb (fun kv => ascii_floats (snd kv)) d
  | _ => true
  end.

Definition unicode_manifest : dict :=
  [(u "author", VStr [74; 233; 128512]%N); (u "version", VFloat (u "1.5"));
   (u "private", VBool true)].

Unset Implicit Arguments.

(** Induction on values through their lists and dicts. *)
Section PyvalInduction.
Variable P : pyval -> Prop.
Hypothesis HNone : P VNone.
Hypothesis HBool : forall b, P (VBool b).
Hypothesis HInt : forall z, P (VInt z).
Hypothesis HFloat : forall r, P (VFloat r).
Hypothesis HStr : forall s, P (VStr s).
Hypothesis HList : forall l, Forall P l -> P (VList l).
Hypothesis HDict : forall d, Forall (fun kv => P (snd kv)) d -> P (VDict d).

Fixpoint pyval_nested_ind (v : pyval) : P v :=
  match v with
  | VNone => HNone
  | VBool b => HBool b
  | VInt z => HInt z
  | VFloat r => HFloat r
  | VStr s => HStr s
  | VList l =>
      HList l
        ((fix elements (l : list pyval) : Forall P l :=
            match l with
            | [] => Forall_nil P
            | x :: l' => Forall_cons x (pyval_nested_ind x) (elements l')
            end) l)
  | VDict d =>
      HDict d
        ((fix members (d : list (str * pyval))
            : Forall (fun kv => P (snd kv)) d :=
            match d with
            | [] => Forall_nil _
            | kv :: d' =>
                Forall_cons kv (pyval_nested_ind (snd kv)) (members d')
            end) d)
  end.
End PyvalInduction.

Set Implicit Arguments.

(** * Properties *)

(** ** Strings and dictionaries *)

Lemma str_eqb_eq (a b : str) : str_eqb a b = true <-> a = b.
Proof.
  revert b; induction a as [|x a IH]; intros [|y b]; simpl; split;
    try easy.
  - rewrite andb_true_iff, N.eqb_eq, IH. intros [-> ->]. reflexivity.
  - intros E; injection E as -> ->.
    rewrite N.eqb_refl. simpl. apply IH. reflexivity.
Qed.

Lemma str_eqb_refl (a : str) : str_eqb a a = true.
Proof. apply str_eqb_eq. reflexivity. Qed.

Lemma str_eqb_neq (a b : str) : str_eqb a b = false <-> a <> b.
Proof.
  rewrite <- str_eqb_eq. destruct (str_eqb a b); split; congruence.
Qed.

Lemma str_eqb_sym (a b : str) : str_eqb a b = str_eqb b a.
Proof.
  destruct (str_eqb b a) eqn:E.
  - apply str_eqb_eq in E. subst. apply str_eqb_refl.
  - apply str_eqb_neq. apply str_eqb_neq in E. congruence.
Qed.

Section DictFacts.
Variable V : Type.
Implicit Types (d : dict_of V) (k : str) (v : V).

Lemma get_setitem_same k v d : dict_get k (dict_setitem k v d) = Some v.
Proof.
  induction d as [|[k' v'] d IH]; simpl.
  - rewrite str_eqb_refl. reflexivity.
  - destruct (str_eqb k k') eqn:E; simpl; rewrite E; auto.
Qed.

Lemma get_setitem_other k k' v d :
  str_eqb k k' = false ->
  dict_get k' (dict_setitem k v d) = dict_get k' d.
Proof.
  intros N. induction d as [|[k0 v0] d IH]; simpl.
  - rewrite str_eqb_sym, N. reflexivity.
  - destruct (str_eqb k k0) eqn:E; simpl.
    + apply str_eqb_eq in E. subst k0.
      rewrite str_eqb_sym, N. reflexivity.
    + rewrite IH. reflexivity.
Qed.

Lemma setitem_setitem_same k v v' d :
  dict_setitem k v (dict_setitem k v' d) = dict_setitem k v d.
Proof.
  induction d as [|[k0 v0] d IH]; simpl.
  - rewrite str_eqb_refl. reflexivity.
  - destruct (str_eqb k k0) eqn:E; simpl; rewrite E; congruence.
Qed.

Lemma setitem_same_value k v d :
  dict_get k d = Some v -> dict_setitem k v d = d.
Proof.
  induction d as [|[k0 v0] d IH]; simpl; [discriminate|].
  destruct (str_eqb k k0).
  - intros [= ->]. reflexivity.
  - intros G. rewrite IH by exact G. reflexivity.
Qed.

Lemma setitem_absent k v d :
  dict_get k d = None -> dict_setitem k v d = d ++ [(k, v)].
Proof.
  induction d as [|[k0 v0] d IH]; simpl; [reflexivity|].
  destruct (str_eqb k k0); [discriminate|].
  intros G. rewrite IH by exact G. reflexivity.
Qed.

Lemma get_delitem_same k d : dict_get k (dict_delitem k d) = None.
Proof.
  induction d as [|[k0 v0] d IH]; simpl; [reflexivity|].
  destruct (str_eqb k k0) eqn:E; simpl; [|rewrite E]; exact IH.
Qed.

Lemma get_delitem_other k k' d :
  str_eqb k k' = false ->
  dict_get k' (dict_delitem k d) = dict_get k' d.
Proof.
  intros N. induction d as [|[k0 v0] d IH]; simpl; [reflexivity|].
  destruct (str_eqb k k0) eqn:E; simpl.
  - apply str_eqb_eq in E. subst k0.
    rewrite str_eqb_sym, N. exact IH.
  - rewrite IH. reflexivity.
Qed.

Lemma delitem_absent k d : dict_get k d = None -> dict_delitem k d = d.
Proof.
  induction d as [|[k0 v0] d IH]; simpl; [reflexivity|].
  destruct (str_eqb k k0); simpl; [discriminate|].
  intros G. rewrite IH by exact G. reflexivity.
Qed.

Lemma contains_get k d :
  dict_contains k d = true <-> exists v, dict_get k d = Some v.
Proof.
  unfold dict_contains. destruct (dict_get k d) as [v|]; split.
  - intros _. exists v. reflexivity.
  - reflexivity.
  - discriminate.
  - intros [v E]. discriminate.
Qed.

Lemma contains_false_get k d :
  dict_contains k d = false <-> dict_get k d = None.
Proof.
  unfold dict_contains. destruct (dict_get k d); split; congruence.
Qed.

(** Writing or deleting one of the keys [ks] leaves the other entries, and
    their order, alone. *)
Lemma without_setitem ks k v d :
  existsb (str_eqb k) ks = true ->
  dict_without ks (dict_setitem k v d) = dict_without ks d.
Proof.
  intros K. unfold dict_without.
  induction d as [|[k0 v0] d IH]; simpl.
  - rewrite K. reflexivity.
  - destruct (str_eqb k k0) eqn:E; simpl.
    + apply str_eqb_eq in E. subst k0. rewrite K. reflexivity.
    + rewrite IH. reflexivity.
Qed.

Lemma without_delitem ks k d :
  existsb (str_eqb k) ks = true ->
  dict_without ks (dict_delitem k d) = dict_without ks d.
Proof.
  intros K. unfold dict_without, dict_delitem.
  induction d as [|[k0 v0] d IH]; simpl; [reflexivity|].
  destruct (str_eqb k k0) eqn:E; simpl.
  - apply str_eqb_eq in E. subst k0. rewrite K. simpl. exact IH.
  - rewrite IH. reflexivity.
Qed.

Lemma keys_setitem k v d :
  dict_keys (dict_setitem k v d)
  = if dict_contains k d then dict_keys d else dict_keys d ++ [k].
Proof.
  unfold dict_contains.
  induction d as [|[k0 v0] d IH]; simpl; [reflexivity|].
  destruct (str_eqb k k0); simpl; [reflexivity|].
  rewrite IH. destruct (dict_get k d); reflexivity.
Qed.

Lemma keys_delitem k d :
  dict_keys (dict_delitem k d)
  = filter (fun k' => negb (str_eqb k k')) (dict_keys d).
Proof.
  unfold dict_delitem, dict_keys.
  induction d as [|[k0 v0] d IH]; simpl; [reflexivity|].
  destruct (str_eqb k k0); simpl; rewrite IH; reflexivity.
Qed.

Lemma get_none_keys k d : dict_get k d = None <-> ~ In k (dict_keys d).
Proof.
  induction d as [|[k0 v0] d IH]; simpl.
  - tauto.
  - destruct (str_eqb k k0) eqn:E.
    + apply str_eqb_eq in E. subst k0. split; [discriminate|tauto].
    + apply str_eqb_neq in E. rewrite IH. split.
      * intros H [K|K]; [congruence|tauto].
      * tauto.
Qed.

(** The operations keep the keys of a dict unique. *)
Lemma setitem_unique_keys k v d :
  NoDup (dict_keys d) -> NoDup (dict_keys (dict_setitem k v d)).
Proof.
  intros U. rewrite keys_setitem.
  destruct (dict_contains k d) eqn:C; [exact U|].
  apply contains_false_get, get_none_keys in C.
  apply NoDup_app; [exact U | repeat constructor; intros [] | ].
  intros x X [<-|[]]. contradiction.
Qed.

(** On unique keys, [dict_delitem] takes out the entry of [k] and nothing
    else. *)
Lemma delitem_unique_keys k v d :
  NoDup (dict_keys d) -> dict_get k d = Some v ->
  exists d1 d2,
    d = d1 ++ (k, v) :: d2 /\ dict_delitem k d = d1 ++ d2 /\
    NoDup (dict_keys (dict_delitem k d)).
Proof.
  induction d as [|[k0 v0] d IH]; simpl; [discriminate|].
  intros U G. inversion U as [|? ? Fresh U']; subst.
  destruct (str_eqb k k0) eqn:E; simpl.
  - apply str_eqb_eq in E. subst k0. injection G as ->.
    apply get_none_keys in Fresh. rewrite (delitem_absent _ _ Fresh).
    exists [], d. repeat split; assumption.
  - destruct (IH U' G) as (d1 & d2 & -> & Del & U2).
    exists ((k0, v0) :: d1), d2. rewrite Del. repeat split.
    simpl. constructor; [|rewrite <- Del; exact U2].
    intros K. apply Fresh. unfold dict_keys in *.
    rewrite map_app in *. simpl. apply in_app_or in K.
    apply in_or_app. simpl. tauto.
Qed.

Lemma get_without ks k d :
  existsb (str_eqb k) ks = false ->
  dict_get k (dict_without ks d) = dict_get k d.
Proof.
  intros K. unfold dict_without.
  induction d as [|[k0 v0] d IH]; simpl; [reflexivity|].
  destruct (str_eqb k k0) eqn:E.
  - apply str_eqb_eq in E. subst k0. rewrite K. simpl.
    rewrite str_eqb_refl. reflexivity.
  - destruct (existsb (str_eqb k0) ks); simpl; [|rewrite E]; exact IH.
Qed.
End DictFacts.

(** ** Running the statements *)

Lemma bind_inr A B (m : M A) (f : A -> M B) st a st' :
  m st = (inr a, st') -> bind m f st = f a st'.
Proof. intros E. unfold bind. rewrite E. reflexivity. Qed.

Lemma bind_inl A B (m : M A) (f : A -> M B) st e st' :
  m st = (inl e, st') -> bind m f st = (inl e, st').
Proof. intros E. unfold bind. rewrite E. reflexivity. Qed.

Lemma data_contains_run k d e :
  data_contains k (mkState (VDict d) e)
  = (inr (dict_contains k d), mkState (VDict d) e).
Proof. reflexivity. Qed.

Lemma data_setitem_run k v d e :
  data_setitem k v (mkState (VDict d) e)
  = (inr tt, mkState (VDict (dict_setitem k v d)) e).
Proof. reflexivity. Qed.

(** On a manifest whose field [f] holds the dict [s], the statements on
    [data[f]] act on [s] and put the result back where [f] stands. *)
Section FieldSteps.
Variables (f : str) (d : dict) (e : str).

Let at_field (s : dict) : state :=
  mkState (VDict (dict_setitem f (VDict s) d)) e.

Lemma field_contains_run k s :
  field_contains f k (at_field s) = (inr (dict_contains k s), at_field s).
Proof.
  unfold field_contains, at_field, bind, get_data, lift; simpl.
  rewrite get_setitem_same. reflexivity.
Qed.

Lemma field_setitem_run k v s :
  field_setitem f k v (at_field s) = (inr tt, at_field (dict_setitem k v s)).
Proof.
  unfold field_setitem, at_field, bind, get_data, lift, put_data; simpl.
  rewrite get_setitem_same; simpl.
  rewrite setitem_setitem_same. reflexivity.
Qed.

Lemma field_delitem_run k s :
  dict_contains k s = true ->
  field_delitem f k (at_field s) = (inr tt, at_field (dict_delitem k s)).
Proof.
  intros K.
  unfold field_delitem, at_field, bind, get_data, lift, put_data; simpl.
  rewrite get_setitem_same; simpl. rewrite K; simpl.
  rewrite setitem_setitem_same. reflexivity.
Qed.
End FieldSteps.

(** A field that holds something else than a dict makes the first statement
    on it raise. *)
Lemma field_setitem_raises f k v d x e :
  dict_get f d = Some x -> (forall s, x <> VDict s) ->
  field_setitem f k v (mkState (VDict d) e) = (inl TypeError, mkState (VDict d) e).
Proof.
  intros G NotDict.
  unfold field_setitem, bind, get_data, lift; simpl. rewrite G.
  destruct x; try reflexivity. destruct (NotDict d0). reflexivity.
Qed.

Lemma modify_scripts_run s d e :
  ModifyPackage.modify_scripts
    (mkState (VDict (dict_setitem (u "scripts") (VDict s) d)) e)
  = (inr tt,
     mkState (VDict (dict_setitem (u "scripts") (VDict (edit_scripts s)) d)) e).
Proof.
  unfold ModifyPackage.modify_scripts, edit_scripts.
  set (s1 := dict_setitem (u "build") _ s).
  rewrite (@bind_inr _ _ _ _ _ _ _ (field_setitem_run _ _ _ _ _ _)). fold s1.
  rewrite (@bind_inr _ _ _ _ _ _ _ (field_contains_run _ _ _ _ _)).
  assert (Del : when (dict_contains (u "lint:format") s1)
                  (field_delitem (u "scripts") (u "lint:format"))
                  (mkState (VDict (dict_setitem (u "scripts") (VDict s1) d)) e)
                = (inr tt,
                   mkState (VDict (dict_setitem (u "scripts")
                     (VDict (dict_delitem (u "lint:format") s1)) d)) e)).
  { destruct (dict_contains (u "lint:format") s1) eqn:C; simpl.
    - apply field_delitem_run. exact C.
    - apply contains_false_get in C. rewrite (delitem_absent _ _ C).
      reflexivity. }
  rewrite (@bind_inr _ _ _ _ _ _ _ Del).
  do 3 rewrite (@bind_inr _ _ _ _ _ _ _ (field_setitem_run _ _ _ _ _ _)).
  apply field_setitem_run.
Qed.

(** The whole body: it raises exactly when [scripts] is there and is not a
    dict, and otherwise leaves the edited [scripts] in its place (at the end
    of the manifest when it was missing). *)
Lemma modify_package_body_run d e :
  ModifyPackage.body (mkState (VDict d) e)
  = match dict_get (u "scripts") d with
    | None =>
        (inr tt,
         mkState (VDict (dict_setitem (u "scripts") (VDict (edit_scripts [])) d)) e)
    | Some (VDict s) =>
        (inr tt,
         mkState (VDict (dict_setitem (u "scripts") (VDict (edit_scripts s)) d)) e)
    | Some _ => (inl TypeError, mkState (VDict d) e)
    end.
Proof.
  unfold ModifyPackage.body, ModifyPackage.ensure_scripts.
  assert (Ensure : forall b st r,
    data_contains (u "scripts") (mkState (VDict d) e)
      = (inr b, mkState (VDict d) e) ->
    when (negb b) (data_setitem (u "scripts") (VDict [])) (mkState (VDict d) e)
      = (inr tt, st) ->
    ModifyPackage.modify_scripts st = r ->
    ((present <- data_contains (u "scripts") ;;
      when (negb present) (data_setitem (u "scripts") (VDict []))) ;;
     ModifyPackage.modify_scripts) (mkState (VDict d) e) = r).
  { intros b st r C W R.
    erewrite bind_inr; [exact R|].
    erewrite bind_inr; [exact W|exact C]. }
  destruct (dict_get (u "scripts") d) as [x|] eqn:G.
  - assert (C : dict_contains (u "scripts") d = true)
      by (apply contains_get; eauto).
    eapply Ensure.
    + rewrite data_contains_run, C. reflexivity.
    + reflexivity.
    + destruct x;
        try (unfold ModifyPackage.modify_scripts;
             apply bind_inl; apply (field_setitem_raises _ _ _ _ _ G);
             discriminate).
      rewrite <- (setitem_same_value _ _ G) at 1.
      apply modify_scripts_run.
  - assert (C : dict_contains (u "scripts") d = false)
      by (apply contains_false_get; exact G).
    eapply Ensure.
    + rewrite data_contains_run, C. reflexivity.
    + simpl. apply data_setitem_run.
    + apply modify_scripts_run.
Qed.

(** ** The edited [scripts] *)

Ltac through_writes :=
  repeat first
    [ rewrite get_setitem_same
    | rewrite get_delitem_same
    | rewrite get_setitem_other by reflexivity
    | rewrite get_delitem_other by reflexivity ].

Lemma edit_scripts_invariant s : scripts_invariant (edit_scripts s).
Proof.
  unfold scripts_invariant, dict_contains, edit_scripts.
  repeat split; through_writes; reflexivity.
Qed.

Lemma edit_scripts_frame s :
  dict_without edited_keys (edit_scripts s) = dict_without edited_keys s.
Proof.
  unfold edit_scripts.
  repeat first [ rewrite without_setitem by reflexivity
               | rewrite without_delitem by reflexivity ].
  reflexivity.
Qed.

Lemma edit_scripts_get_other k s :
  existsb (str_eqb k) edited_keys = false ->
  dict_get k (edit_scripts s) = dict_get k s.
Proof.
  intros K.
  rewrite <- (get_without _ _ (edit_scripts s) K), edit_scripts_frame.
  apply get_without. exact K.
Qed.

Lemma edit_scripts_idempotent s : edit_scripts (edit_scripts s) = edit_scripts s.
Proof.
  destruct (edit_scripts_invariant s) as (B & L & LF' & F & FF & Stale).
  apply contains_false_get in Stale.
  unfold edit_scripts at 1.
  rewrite (setitem_same_value _ _ B), (delitem_absent _ _ Stale).
  rewrite (setitem_same_value _ _ L), (setitem_same_value _ _ LF').
  rewrite (setitem_same_value _ _ F). apply (setitem_same_value _ _ FF).
Qed.

(** ** The body of remove_prettier.py *)

Lemma remove_prettier_body_run d e :
  RemovePrettier.body (mkState (VDict d) e)
  = let not_found := (inr tt, mkState (VDict d) (e ++ not_found_line)) in
    let raised := (inl TypeError, mkState (VDict d) e) in
    match dict_get (u "devDependencies") d with
    | None => not_found
    | Some (VDict deps) =>
        if dict_contains (u "prettier") deps
        then (inr tt,
              mkState (VDict (dict_setitem (u "devDependencies")
                                (VDict (dict_delitem (u "prettier") deps)) d))
                (e ++ removed_line))
        else not_found
    | Some (VList l) =>
        if existsb (py_eq_str (u "prettier")) l then raised else not_found
    | Some (VStr s) =>
        if str_contains s (u "prettier") then raised else not_found
    | Some _ => raised
    end.
Proof.
  cbv beta iota delta
    [RemovePrettier.body bind data_contains field_contains field_delitem
     get_data lift put_data print_stderr data err ret
     py_contains py_getitem py_setitem py_delitem dict_contains].
  fold removed_line. fold not_found_line.
  destruct (dict_get (u "devDependencies") d) as [x|] eqn:G;
    rewrite ?G; cbv beta iota.
  2: reflexivity.
  destruct x as [|b|z|r|s|l|deps]; try reflexivity.
  - destruct (str_contains s (u "prettier")); rewrite ?G; reflexivity.
  - destruct (existsb (py_eq_str (u "prettier")) l); rewrite ?G; reflexivity.
  - destruct (dict_get (u "prettier") deps) eqn:C; rewrite ?G, ?C; reflexivity.
Qed.

(** ** The layout of the dump *)

Lemma join_prefixed (sep p x : str) (l : list str) :
  p ++ str_join (sep ++ p) (x :: l) = str_join sep (map (app p) (x :: l)).
Proof.
  revert x. induction l as [|y l IH]; intros x.
  - reflexivity.
  - change (p ++ x ++ (sep ++ p) ++ str_join (sep ++ p) (y :: l)
            = (p ++ x) ++ sep ++ str_join sep (map (app p) (y :: l))).
    rewrite <- IH. rewrite <- !app_assoc. reflexivity.
Qed.

Lemma json_dumps_object d : json_dumps 2 (VDict d) = indented_object d.
Proof.
  destruct d as [|kv d]; [reflexivity|].
  unfold json_dumps, indented_object.
  change (iterencode 2 0 (VDict (kv :: d)))
    with (u "{" ++ newline_indent 2 1
          ++ str_join (u "," ++ newline_indent 2 1)
               (map (fun kv => encode_basestring_ascii (fst kv) ++ u ": "
                               ++ iterencode 2 1 (snd kv)) (kv :: d))
          ++ newline_indent 2 0 ++ u "}").
  f_equal. rewrite app_assoc. f_equal.
  change (map _ (kv :: d)) with
    (map (fun kv => encode_basestring_ascii (fst kv) ++ u ": "
                    ++ iterencode 2 1 (snd kv)) (kv :: d)) at 1.
  rewrite <- (map_map (fun kv => encode_basestring_ascii (fst kv) ++ u ": "
                                 ++ iterencode 2 1 (snd kv))
                      (app (newline_indent 2 1))).
  apply (join_prefixed (u ",") (newline_indent 2 1)).
Qed.

(** ** What the two filters compute on an object *)

Unset Implicit Arguments.

Lemma modify_package_transform d :
  ModifyPackage.transform (VDict d)
  = match dict_get (u "scripts") d with
    | None =>
        inr (VDict (dict_setitem (u "scripts") (VDict (edit_scripts [])) d))
    | Some (VDict s) =>
        inr (VDict (dict_setitem (u "scripts") (VDict (edit_scripts s)) d))
    | Some _ => inl TypeError
    end.
Proof.
  unfold ModifyPackage.transform, exec. rewrite modify_package_body_run.
  destruct (dict_get (u "scripts") d) as [[|b|z|r|s|l|s]|]; reflexivity.
Qed.

(** The Script-Editor prints nothing to standard error itself, and dumps the
    manifest its body leaves. *)
Lemma modify_package_main d :
  ModifyPackage.main (Loaded (VDict d))
  = match ModifyPackage.transform (VDict d) with
    | inl e => mkOutcome [] [] (Uncaught e)
    | inr d' => mkOutcome (json_dumps 2 d') [] Finished
    end.
Proof.
  unfold ModifyPackage.main, ModifyPackage.transform, run_body, exec.
  rewrite modify_package_body_run.
  destruct (dict_get (u "scripts") d) as [[|b|z|r|s|l|s]|]; reflexivity.
Qed.

Lemma remove_prettier_transform d :
  RemovePrettier.transform (VDict d)
  = match dict_get (u "devDependencies") d with
    | None => inr (VDict d)
    | Some (VDict deps) =>
        if dict_contains (u "prettier") deps
        then inr (VDict (dict_setitem (u "devDependencies")
                           (VDict (dict_delitem (u "prettier") deps)) d))
        else inr (VDict d)
    | Some (VList l) =>
        if existsb (py_eq_str (u "prettier")) l then inl TypeError
        else inr (VDict d)
    | Some (VStr s) =>
        if str_contains s (u "prettier") then inl TypeError else inr (VDict d)
    | Some _ => inl TypeError
    end.
Proof.
  unfold RemovePrettier.transform, exec. rewrite remove_prettier_body_run.
  cbv zeta.
  destruct (dict_get (u "devDependencies") d) as [[|b|z|r|s|l|deps]|];
    try reflexivity.
  - destruct (str_contains s (u "prettier")); reflexivity.
  - destruct (existsb (py_eq_str (u "prettier")) l); reflexivity.
  - destruct (dict_contains (u "prettier") deps); reflexivity.
Qed.

(** The Dependency-Remover prints one of its two lines when its body
    completes, the first one exactly when it deleted [prettier]. *)
Lemma remove_prettier_main d :
  RemovePrettier.main (Loaded (VDict d))
  = match RemovePrettier.transform (VDict d) with
    | inl e => mkOutcome [] [] (Uncaught e)
    | inr d' =>
        mkOutcome (json_dumps 2 d')
          (if has_prettier d then removed_line else not_found_line) Finished
    end.
Proof.
  unfold RemovePrettier.main, RemovePrettier.transform, run_body, exec,
    has_prettier.
  rewrite remove_prettier_body_run. cbv zeta.
  destruct (dict_get (u "devDependencies") d) as [[|b|z|r|s|l|deps]|];
    try reflexivity.
  - destruct (str_contains s (u "prettier")); reflexivity.
  - destruct (existsb (py_eq_str (u "prettier")) l); reflexivity.
  - destruct (dict_contains (u "prettier") deps); reflexivity.
Qed.

(** The runs that are not error runs. *)
Lemma script_editor_finishes d :
  term (ModifyPackage.main (Loaded (VDict d))) = Finished
  <-> scripts_absent_or_mapping d.
Proof.
  rewrite modify_package_main, modify_package_transform.
  unfold scripts_absent_or_mapping.
  destruct (dict_get (u "scripts") d) as [[|b|z|r|s|l|s]|]; simpl;
    split; try discriminate; try contradiction; auto.
Qed.

Lemma dependency_remover_finishes d :
  term (RemovePrettier.main (Loaded (VDict d))) = Finished
  <-> prettier_test_safe d = true.
Proof.
  rewrite remove_prettier_main, remove_prettier_transform.
  unfold prettier_test_safe.
  destruct (dict_get (u "devDependencies") d) as [[|b|z|r|s|l|deps]|];
    [ | | | |destruct (str_contains s (u "prettier"))
    |destruct (existsb (py_eq_str (u "prettier")) l)
    |destruct (dict_contains (u "prettier") deps)| ];
    simpl; split; try discriminate; auto.
Qed.

(** ** The Script-Editor *)

(** C1, as the code has it: on a JSON-object manifest whose [scripts] field
    is absent or is a mapping, the Script-Editor completes and leaves a
    manifest with a [scripts] mapping (created when it was missing) in which
    [build], [lint], [lint:fix], [format] and [format:fix] hold their five
    fixed commands and [lint:format] is absent; that manifest is what it
    dumps. *)
Theorem script_editor_establishes_scripts (d : dict) :
  scripts_absent_or_mapping d ->
  exists d' s',
    ModifyPackage.transform (VDict d) = inr (VDict d') /\
    ModifyPackage.main (Loaded (VDict d))
      = mkOutcome (json_dumps 2 (VDict d')) [] Finished /\
    dict_get (u "scripts") d' = Some (VDict s') /\
    scripts_invariant s' /\
    dict_keys d'
      = if dict_contains (u "scripts") d then dict_keys d
        else dict_keys d ++ [u "scripts"].
Proof.
  unfold scripts_absent_or_mapping. intros Ok.
  rewrite modify_package_main, modify_package_transform.
  destruct (dict_get (u "scripts") d) as [[|b|z|r|s|l|s]|]; try contradiction;
    eexists; eexists; (split; [reflexivity|]); (split; [reflexivity|]);
    (split; [apply get_setitem_same|]);
    (split; [apply edit_scripts_invariant | apply keys_setitem]).
Qed.

Lemma script_editor_establishes_scripts_witness :
  scripts_absent_or_mapping [(u "name", VStr (u "env-twin"))] /\
  exists d' s',
    ModifyPackage.transform (VDict [(u "name", VStr (u "env-twin"))])
      = inr (VDict d') /\
    ModifyPackage.main (Loaded (VDict [(u "name", VStr (u "env-twin"))]))
      = mkOutcome (json_dumps 2 (VDict d')) [] Finished /\
    dict_get (u "scripts") d' = Some (VDict s') /\
    scripts_invariant s' /\
    dict_keys d' = [u "name"; u "scripts"].
Proof.
  split.
  - exact I.
  - apply (script_editor_establishes_scripts [(u "name", VStr (u "env-twin"))]).
    exact I.
Defined.

(** C1 as stated fails: on the JSON-object manifest [{"scripts": []}] the
    first assignment into [data['scripts']] raises, and no manifest comes
    out. *)
Lemma script_editor_raises_on_array_scripts :
  ModifyPackage.transform (VDict [(u "scripts", VList [])]) = inl TypeError /\
  ModifyPackage.main (Loaded (VDict [(u "scripts", VList [])]))
    = mkOutcome [] [] (Uncaught TypeError).
Proof. split; reflexivity. Qed.

(** C5: applying the Script-Editor transform to its own output manifest
    gives that manifest again, for every JSON-object manifest. *)
Theorem script_editor_idempotent (d : dict) :
  and_then (ModifyPackage.transform (VDict d)) ModifyPackage.transform
  = ModifyPackage.transform (VDict d).
Proof.
  assert (Again : forall s,
    ModifyPackage.transform
      (VDict (dict_setitem (u "scripts") (VDict (edit_scripts s)) d))
    = inr (VDict (dict_setitem (u "scripts") (VDict (edit_scripts s)) d))).
  { intros s. rewrite modify_package_transform, get_setitem_same.
    rewrite edit_scripts_idempotent, setitem_setitem_same. reflexivity. }
  rewrite (modify_package_transform d).
  destruct (dict_get (u "scripts") d) as [[|b|z|r|s|l|s]|]; simpl;
    try reflexivity; apply Again.
Qed.

(** C7: on [{"scripts": {"lint:format": "x", "test": "y"}}] the output
    [scripts] is exactly [test], [build], [lint], [lint:fix], [format],
    [format:fix] with their values, and has no [lint:format]. *)
Theorem script_editor_scenario :
  scenario_manifest
    = [(u "scripts",
        VDict [(u "lint:format", VStr (u "x")); (u "test", VStr (u "y"))])] /\
  exists out,
    ModifyPackage.main (Loaded (VDict scenario_manifest))
      = mkOutcome (json_dumps 2 (VDict out)) [] Finished /\
    out = [(u "scripts",
            VDict [(u "test", VStr (u "y"));
                   (u "build", VStr (u "bun build.ts"));
                   (u "lint", VStr (u "bun biome lint ."));
                   (u "lint:fix", VStr (u "bun biome lint --apply ."));
                   (u "format", VStr (u "bun biome format ."));
                   (u "format:fix", VStr (u "bun biome format --write ."))])].
Proof.
  split; [reflexivity|].
  eexists. split; [|reflexivity]. vm_compute. reflexivity.
Qed.

(** C9: when [scripts] is a mapping, its entries under keys other than
    [build], [lint], [lint:fix], [format], [format:fix] and [lint:format]
    come out as they went in: same keys, same values, same order. *)
Theorem script_editor_scripts_frame (d s : dict) :
  dict_get (u "scripts") d = Some (VDict s) ->
  exists s',
    ModifyPackage.transform (VDict d)
      = inr (VDict (dict_setitem (u "scripts") (VDict s') d)) /\
    dict_without edited_keys s' = dict_without edited_keys s /\
    forall k, existsb (str_eqb k) edited_keys = false ->
              dict_get k s' = dict_get k s.
Proof.
  intros G. exists (edit_scripts s).
  rewrite modify_package_transform, G.
  split; [reflexivity|]. split.
  - apply edit_scripts_frame.
  - intros k. apply edit_scripts_get_other.
Qed.

Lemma script_editor_scripts_frame_witness :
  dict_get (u "scripts") named_manifest = Some (VDict scenario_scripts) /\
  exists s',
    ModifyPackage.transform (VDict named_manifest)
      = inr (VDict (dict_setitem (u "scripts") (VDict s') named_manifest)) /\
    dict_without edited_keys s' = dict_without edited_keys scenario_scripts /\
    forall k, existsb (str_eqb k) edited_keys = false ->
              dict_get k s' = dict_get k scenario_scripts.
Proof.
  split.
  - reflexivity.
  - apply (script_editor_scripts_frame named_manifest scenario_scripts).
    reflexivity.
Defined.

(** ** The Dependency-Remover *)

(** C2, as the code has it: on every JSON-object manifest on which the run
    is not an error run, the Dependency-Remover removes [prettier] from
    [devDependencies] and prints "Removed prettier from devDependencies."
    when [devDependencies] is a mapping with the key [prettier]; otherwise it
    leaves the manifest alone and prints "prettier not found in
    devDependencies or devDependencies section missing.".  Each such run
    prints exactly one of the two lines, and they differ. *)
Theorem dependency_remover_branches (d : dict) :
  term (RemovePrettier.main (Loaded (VDict d))) = Finished ->
  ((has_prettier d = true /\
    exists deps,
      dict_get (u "devDependencies") d = Some (VDict deps) /\
      dict_contains (u "prettier") (dict_delitem (u "prettier") deps) = false /\
      RemovePrettier.main (Loaded (VDict d))
        = mkOutcome
            (json_dumps 2
               (VDict (dict_setitem (u "devDependencies")
                         (VDict (dict_delitem (u "prettier") deps)) d)))
            (line "Removed prettier from devDependencies.") Finished)
   \/
   (has_prettier d = false /\
    RemovePrettier.main (Loaded (VDict d))
      = mkOutcome (json_dumps 2 (VDict d))
          (line "prettier not found in devDependencies or devDependencies section missing.")
          Finished))
  /\ line "Removed prettier from devDependencies."
     <> line "prettier not found in devDependencies or devDependencies section missing.".
Proof.
  intros Done. split; [|discriminate].
  revert Done. rewrite remove_prettier_main, remove_prettier_transform.
  unfold has_prettier.
  destruct (dict_get (u "devDependencies") d) as [[|b|z|r|s|l|deps]|];
    try discriminate; try (intros _; right; split; reflexivity).
  - destruct (str_contains s (u "prettier")); [discriminate|].
    intros _. right. split; reflexivity.
  - destruct (existsb (py_eq_str (u "prettier")) l); [discriminate|].
    intros _. right. split; reflexivity.
  - destruct (dict_contains (u "prettier") deps) eqn:C; intros _.
    + left. split; [reflexivity|]. exists deps.
      split; [reflexivity|]. split; [|reflexivity].
      apply contains_false_get, get_delitem_same.
    + right. split; reflexivity.
Qed.

Lemma dependency_remover_branches_witness :
  term (RemovePrettier.main (Loaded (VDict named_manifest))) = Finished /\
  stderr (RemovePrettier.main (Loaded (VDict named_manifest)))
    = line "Removed prettier from devDependencies.".
Proof.
  split.
  - reflexivity.
  - destruct (dependency_remover_branches named_manifest eq_refl)
      as [[(_ & deps & _ & _ & Run) | (Absent & _)] _].
    + rewrite Run. reflexivity.
    + vm_compute in Absent. discriminate Absent.
Defined.

(** C2 as stated fails: [{"devDependencies": null}] has no [prettier]
    in a [devDependencies] mapping, yet the run prints neither line: the
    membership test on [None] raises. *)
Lemma dependency_remover_raises_on_null_devDependencies :
  has_prettier [(u "devDependencies", VNone)] = false /\
  RemovePrettier.main (Loaded (VDict [(u "devDependencies", VNone)]))
    = mkOutcome [] [] (Uncaught TypeError).
Proof. split; reflexivity. Qed.

(** C6: applying the Dependency-Remover transform to its own output
    manifest gives that manifest again, for every JSON-object manifest: the
    first application leaves no [prettier] to delete. *)
Theorem dependency_remover_idempotent (d : dict) :
  and_then (RemovePrettier.transform (VDict d)) RemovePrettier.transform
  = RemovePrettier.transform (VDict d).
Proof.
  rewrite (remove_prettier_transform d).
  destruct (dict_get (u "devDependencies") d) as [[|b|z|r|s|l|deps]|] eqn:G;
    try reflexivity.
  - destruct (str_contains s (u "prettier")) eqn:C; cbn [and_then];
      [reflexivity|].
    rewrite remove_prettier_transform, G, C. reflexivity.
  - destruct (existsb (py_eq_str (u "prettier")) l) eqn:C; cbn [and_then];
      [reflexivity|].
    rewrite remove_prettier_transform, G, C. reflexivity.
  - destruct (dict_contains (u "prettier") deps) eqn:C; cbn [and_then].
    + rewrite remove_prettier_transform, get_setitem_same.
      unfold dict_contains. rewrite get_delitem_same. reflexivity.
    + rewrite remove_prettier_transform, G, C. reflexivity.
  - cbn [and_then]. rewrite remove_prettier_transform, G. reflexivity.
Qed.

(** C10: when [devDependencies] is not a JSON object and the membership
    test for [prettier] succeeds on it (an array with the element
    ["prettier"], a string with that substring), the deletion raises a
    [TypeError] nobody catches: the exit code is 1, nothing is written to
    standard output, and the input was not a parse error. *)
Theorem dependency_remover_type_error (d : dict) (x : pyval) :
  dict_get (u "devDependencies") d = Some x ->
  is_dict x = false ->
  py_contains (u "prettier") x = inr true ->
  RemovePrettier.main (Loaded (VDict d)) = mkOutcome [] [] (Uncaught TypeError) /\
  exit_code (term (RemovePrettier.main (Loaded (VDict d)))) = 1%Z /\
  is_decode_error (Loaded (VDict d)) = false.
Proof.
  intros G NotDict Member.
  assert (Run : RemovePrettier.main (Loaded (VDict d))
                = mkOutcome [] [] (Uncaught TypeError)).
  { rewrite remove_prettier_main, remove_prettier_transform, G.
    destruct x as [|b|z|r|s|l|deps]; simpl in *; try discriminate.
    - injection Member as ->. reflexivity.
    - injection Member as ->. reflexivity. }
  rewrite Run. repeat split.
Qed.

Lemma dependency_remover_type_error_witness :
  dict_get (u "devDependencies") array_deps_manifest
    = Some (VList [VStr (u "prettier")]) /\
  is_dict (VList [VStr (u "prettier")]) = false /\
  py_contains (u "prettier") (VList [VStr (u "prettier")]) = inr true /\
  RemovePrettier.main (Loaded (VDict array_deps_manifest))
    = mkOutcome [] [] (Uncaught TypeError) /\
  exit_code (term (RemovePrettier.main (Loaded (VDict array_deps_manifest)))) = 1%Z /\
  is_decode_error (Loaded (VDict array_deps_manifest)) = false.
Proof.
  split; [reflexivity|]. split; [reflexivity|]. split; [reflexivity|].
  apply (dependency_remover_type_error array_deps_manifest
           (VList [VStr (u "prettier")])); reflexivity.
Defined.

(** ** Both filters *)

(** C3, as the code has it: when [json.load] raises [JSONDecodeError], each
    filter writes nothing to standard output, prints the line
    "Error decoding JSON: <message>" to standard error and exits with
    code 1.  That is not the only way to exit code 1: a run on a parsed
    document exits with 1 when the edit raises, and with 0 otherwise. *)
Theorem parse_error_outcome (f : script) (msg : str) (input : load_result) :
  main_of f (JSONDecodeError msg)
    = mkOutcome [] (u "Error decoding JSON: " ++ msg ++ [LF]) (SysExit 1) /\
  exit_code (term (main_of f (JSONDecodeError msg))) = 1%Z /\
  exit_code (term (main_of f input))
    = match input with
      | JSONDecodeError _ => 1%Z
      | Loaded v =>
          match transform_of f v with
          | inl _ => 1%Z
          | inr _ => 0%Z
          end
      end.
Proof.
  destruct f; (split; [reflexivity|]); (split; [reflexivity|]);
    destruct input as [m|v]; try reflexivity; simpl;
    unfold ModifyPackage.transform, RemovePrettier.transform, run_body, exec.
  - destruct (ModifyPackage.body (mkState v [])) as [[e|[]] st]; reflexivity.
  - destruct (RemovePrettier.body (mkState v [])) as [[e|[]] st]; reflexivity.
Qed.

(** C3 as stated fails: [{"devDependencies": ["prettier"]}] parses, and the
    Dependency-Remover still exits with code 1. *)
Lemma exit_code_1_without_parse_error :
  is_decode_error (Loaded (VDict array_deps_manifest)) = false /\
  exit_code (term (RemovePrettier.main (Loaded (VDict array_deps_manifest)))) = 1%Z /\
  stdout (RemovePrettier.main (Loaded (VDict array_deps_manifest))) = [].
Proof. repeat split. Qed.

(** C4, as the code has it: on every JSON object on which the run is not
    an error run, the top-level fields other than [scripts] (Script-Editor),
    respectively [devDependencies] (Dependency-Remover), come out with the
    same values and in the same order, and standard output is the dump of
    the whole manifest with a 2-space indent, every member of the top-level
    object on a line of its own behind two spaces. *)
Theorem other_fields_preserved (f : script) (d : dict) :
  term (main_of f (Loaded (VDict d))) = Finished ->
  exists d',
    transform_of f (VDict d) = inr (VDict d') /\
    stdout (main_of f (Loaded (VDict d))) = json_dumps 2 (VDict d') /\
    json_dumps 2 (VDict d') = indented_object d' /\
    dict_without [edited_field f] d' = dict_without [edited_field f] d /\
    forall k, str_eqb k (edited_field f) = false ->
              dict_get k d' = dict_get k d.
Proof.
  intros Done.
  assert (Frame : forall x,
    dict_without [edited_field f] (dict_setitem (edited_field f) x d)
    = dict_without [edited_field f] d).
  { intros x. apply without_setitem. simpl.
    rewrite str_eqb_refl. reflexivity. }
  assert (Out : exists d',
    transform_of f (VDict d) = inr (VDict d') /\
    stdout (main_of f (Loaded (VDict d))) = json_dumps 2 (VDict d') /\
    dict_without [edited_field f] d' = dict_without [edited_field f] d).
  { revert Done Frame. destruct f; cbn [main_of transform_of edited_field].
    - rewrite modify_package_main, modify_package_transform.
      destruct (dict_get (u "scripts") d) as [[|b|z|r|s|l|s]|];
        try discriminate; intros _ Frame; eexists;
        (split; [reflexivity|]); (split; [reflexivity|]); apply Frame.
    - rewrite remove_prettier_main, remove_prettier_transform.
      destruct (dict_get (u "devDependencies") d) as [[|b|z|r|s|l|deps]|];
        try discriminate;
        [ destruct (str_contains s (u "prettier"))
        | destruct (existsb (py_eq_str (u "prettier")) l)
        | destruct (dict_contains (u "prettier") deps)
        | ];
        try discriminate; intros _ Frame; eexists;
        (split; [reflexivity|]); (split; [reflexivity|]);
        first [reflexivity | apply Frame]. }
  destruct Out as (d' & T & O & W). exists d'.
  repeat (split; [assumption|]).
  split; [apply json_dumps_object|]. split; [exact W|].
  intros k K.
  assert (K' : existsb (str_eqb k) [edited_field f] = false)
    by (simpl; rewrite K; reflexivity).
  rewrite <- (get_without _ _ d' K'), W. apply get_without. exact K'.
Qed.

Lemma other_fields_preserved_witness :
  term (main_of modify_package (Loaded (VDict named_manifest))) = Finished /\
  exists d',
    transform_of modify_package (VDict named_manifest) = inr (VDict d') /\
    stdout (main_of modify_package (Loaded (VDict named_manifest)))
      = json_dumps 2 (VDict d') /\
    json_dumps 2 (VDict d') = indented_object d' /\
    dict_without [edited_field modify_package] d'
      = dict_without [edited_field modify_package] named_manifest /\
    forall k, str_eqb k (edited_field modify_package) = false ->
              dict_get k d' = dict_get k named_manifest.
Proof.
  split.
  - reflexivity.
  - apply (other_fields_preserved modify_package named_manifest). reflexivity.
Defined.

(** C4 as stated fails: on the JSON object
    [{"name": "env-twin", "scripts": []}] the Script-Editor writes nothing to
    standard output, so [name] does not appear in it. *)
Lemma no_output_when_scripts_is_array :
  array_scripts_manifest
    = [(u "name", VStr (u "env-twin")); (u "scripts", VList [])] /\
  stdout (ModifyPackage.main (Loaded (VDict array_scripts_manifest))) = [] /\
  term (ModifyPackage.main (Loaded (VDict array_scripts_manifest)))
    = Uncaught TypeError.
Proof. repeat split. Qed.

(** C8: on [{}] the Script-Editor outputs a manifest whose [scripts] holds
    the five fixed fields and nothing else, and the Dependency-Remover
    outputs [{}] and prints the "section missing" line. *)
Theorem empty_manifest_scenario :
  ModifyPackage.main (Loaded (VDict []))
    = mkOutcome
        (json_dumps 2
           (VDict [(u "scripts",
                    VDict [(u "build", VStr (u "bun build.ts"));
                           (u "lint", VStr (u "bun biome lint ."));
                           (u "lint:fix", VStr (u "bun biome lint --apply ."));
                           (u "format", VStr (u "bun biome format ."));
                           (u "format:fix", VStr (u "bun biome format --write ."))])]))
        [] Finished /\
  RemovePrettier.main (Loaded (VDict []))
    = mkOutcome (u "{}")
        (line "prettier not found in devDependencies or devDependencies section missing.")
        Finished /\
  RemovePrettier.transform (VDict []) = inr (VDict []).
Proof. repeat split. Qed.

(** * Further properties of the two scripts *)

(** ** A parsed document that is not an object *)

Ltac run_statements :=
  cbv beta iota delta
    [ModifyPackage.body ModifyPackage.ensure_scripts
     ModifyPackage.modify_scripts RemovePrettier.body
     bind data_contains data_setitem field_contains field_setitem
     field_delitem get_data lift put_data print_stderr when negb data err ret
     py_contains py_getitem py_setitem py_delitem].

Lemma modify_package_body_non_object v e :
  is_dict v = false ->
  ModifyPackage.body (mkState v e) = (inl TypeError, mkState v e).
Proof.
  destruct v as [|b|z|r|s|l|d]; try discriminate; intros _;
    run_statements; try reflexivity.
  - destruct (str_contains s (u "scripts")); reflexivity.
  - destruct (existsb (py_eq_str (u "scripts")) l); reflexivity.
Qed.

Lemma modify_package_main_non_object v :
  is_dict v = false ->
  ModifyPackage.main (Loaded v) = mkOutcome [] [] (Uncaught TypeError).
Proof.
  intros NotDict. unfold ModifyPackage.main, run_body.
  rewrite (modify_package_body_non_object v [] NotDict). reflexivity.
Qed.

(** X1: whatever [json.load] returns that is not a dict (an array, a
    string, a number, a boolean, null), the Script-Editor dies of a
    [TypeError] before it dumps anything: nothing on standard output, exit
    code 1. *)
Theorem script_editor_rejects_non_object (v : pyval) :
  is_dict v = false ->
  ModifyPackage.main (Loaded v) = mkOutcome [] [] (Uncaught TypeError) /\
  exit_code (term (ModifyPackage.main (Loaded v))) = 1%Z.
Proof.
  intros NotDict.
  rewrite (modify_package_main_non_object v NotDict). split; reflexivity.
Qed.

Lemma script_editor_rejects_non_object_witness :
  is_dict array_manifest = false /\
  ModifyPackage.main (Loaded array_manifest)
    = mkOutcome [] [] (Uncaught TypeError) /\
  exit_code (term (ModifyPackage.main (Loaded array_manifest))) = 1%Z.
Proof.
  split; [reflexivity|].
  apply (script_editor_rejects_non_object array_manifest). reflexivity.
Defined.

Lemma remove_prettier_main_non_object v :
  is_dict v = false ->
  RemovePrettier.main (Loaded v)
  = match py_contains (u "devDependencies") v with
    | inr false => mkOutcome (json_dumps 2 v) not_found_line Finished
    | _ => mkOutcome [] [] (Uncaught TypeError)
    end.
Proof.
  destruct v as [|b|z|r|s|l|d]; try discriminate; intros _;
    unfold RemovePrettier.main, run_body; run_statements; try reflexivity.
  - destruct (str_contains s (u "devDependencies")); reflexivity.
  - destruct (existsb (py_eq_str (u "devDependencies")) l); reflexivity.
Qed.

(** X2: the Dependency-Remover does not insist on an object.  An array
    without the element ["devDependencies"], or a string without that
    substring, fails the first membership test, so the script prints the
    "not found" line, dumps the value as it came and exits with 0; every
    other non-dict value ends in an uncaught [TypeError]. *)
Theorem dependency_remover_non_object (v : pyval) :
  is_dict v = false ->
  (py_contains (u "devDependencies") v = inr false ->
   RemovePrettier.main (Loaded v)
     = mkOutcome (json_dumps 2 v) not_found_line Finished) /\
  (py_contains (u "devDependencies") v <> inr false ->
   RemovePrettier.main (Loaded v) = mkOutcome [] [] (Uncaught TypeError)).
Proof.
  intros NotDict. rewrite (remove_prettier_main_non_object v NotDict).
  destruct (py_contains (u "devDependencies") v) as [e|[|]];
    split; intros H; try reflexivity; try discriminate; contradiction.
Qed.

Lemma dependency_remover_non_object_witness :
  is_dict array_manifest = false /\
  RemovePrettier.main (Loaded array_manifest)
    = mkOutcome (json_dumps 2 array_manifest) not_found_line Finished.
Proof.
  split; [reflexivity|].
  apply (dependency_remover_non_object array_manifest); reflexivity.
Defined.

(** X3: the Script-Editor never prints to standard error on a document
    that parsed, whether the edit completes or raises. *)
Theorem script_editor_silent (v : pyval) :
  stderr (ModifyPackage.main (Loaded v)) = [].
Proof.
  destruct (is_dict v) eqn:D.
  - destruct v as [|b|z|r|s|l|d]; try discriminate.
    rewrite modify_package_main.
    destruct (ModifyPackage.transform (VDict d)); reflexivity.
  - rewrite (modify_package_main_non_object v D). reflexivity.
Qed.

(** ** More on the Dependency-Remover *)

(** X4: whatever manifest the Dependency-Remover puts out has no
    [prettier] under a [devDependencies] mapping, so a second run on it
    changes nothing and prints the "not found" line. *)
Theorem dependency_remover_output_clean (d : dict) (out : pyval) :
  RemovePrettier.transform (VDict d) = inr out ->
  exists d',
    out = VDict d' /\
    has_prettier d' = false /\
    RemovePrettier.main (Loaded out)
      = mkOutcome (json_dumps 2 out) not_found_line Finished.
Proof.
  rewrite remove_prettier_transform. intros T.
  assert (Clean : forall d', out = VDict d' -> has_prettier d' = false ->
            RemovePrettier.transform (VDict d') = inr (VDict d') ->
            exists d'', out = VDict d'' /\ has_prettier d'' = false /\
              RemovePrettier.main (Loaded out)
                = mkOutcome (json_dumps 2 out) not_found_line Finished).
  { intros d' -> H T'. exists d'. repeat split; [exact H|].
    rewrite remove_prettier_main, T', H. reflexivity. }
  destruct (dict_get (u "devDependencies") d) as [[|b|z|r|s|l|deps]|] eqn:G;
    try discriminate.
  - destruct (str_contains s (u "prettier")) eqn:C; [discriminate|].
    injection T as <-. apply (Clean d eq_refl).
    + unfold has_prettier. rewrite G. reflexivity.
    + rewrite remove_prettier_transform, G, C. reflexivity.
  - destruct (existsb (py_eq_str (u "prettier")) l) eqn:C; [discriminate|].
    injection T as <-. apply (Clean d eq_refl).
    + unfold has_prettier. rewrite G. reflexivity.
    + rewrite remove_prettier_transform, G, C. reflexivity.
  - destruct (dict_contains (u "prettier") deps) eqn:C; injection T as <-.
    + assert (Gone : dict_contains (u "prettier")
                       (dict_delitem (u "prettier") deps) = false)
        by apply contains_false_get, get_delitem_same.
      apply (Clean _ eq_refl).
      * unfold has_prettier. rewrite get_setitem_same. exact Gone.
      * rewrite remove_prettier_transform, get_setitem_same, Gone.
        reflexivity.
    + apply (Clean d eq_refl).
      * unfold has_prettier. rewrite G. exact C.
      * rewrite remove_prettier_transform, G, C. reflexivity.
  - injection T as <-. apply (Clean d eq_refl).
    + unfold has_prettier. rewrite G. reflexivity.
    + rewrite remove_prettier_transform, G. reflexivity.
Qed.

Lemma dependency_remover_output_clean_witness :
  exists out,
    RemovePrettier.transform (VDict named_manifest) = inr out /\
    exists d',
      out = VDict d' /\
      has_prettier d' = false /\
      RemovePrettier.main (Loaded out)
        = mkOutcome (json_dumps 2 out) not_found_line Finished.
Proof.
  eexists. split; [reflexivity|].
  apply (dependency_remover_output_clean named_manifest). reflexivity.
Defined.

(** X5: inside a [devDependencies] mapping the Dependency-Remover touches
    the entry of [prettier] only: the other entries come out with their
    values and in their order, and the field stays in the manifest even
    when [prettier] was its last entry. *)
Theorem dependency_remover_deps_frame (d deps : dict) :
  dict_get (u "devDependencies") d = Some (VDict deps) ->
  exists deps',
    RemovePrettier.transform (VDict d)
      = inr (VDict (dict_setitem (u "devDependencies") (VDict deps') d)) /\
    deps' = dict_without [u "prettier"] deps /\
    dict_get (u "prettier") deps' = None /\
    forall k, str_eqb k (u "prettier") = false ->
              dict_get k deps' = dict_get k deps.
Proof.
  intros G.
  assert (W : dict_delitem (u "prettier") deps
              = dict_without [u "prettier"] deps).
  { unfold dict_delitem, dict_without. apply filter_ext. intros [k v]. simpl.
    rewrite orb_false_r, (str_eqb_sym k). reflexivity. }
  exists (dict_delitem (u "prettier") deps).
  split; [|split; [exact W|split]].
  - rewrite remove_prettier_transform, G.
    destruct (dict_contains (u "prettier") deps) eqn:C; [reflexivity|].
    apply contains_false_get in C. rewrite (delitem_absent _ _ C).
    rewrite (setitem_same_value _ _ G). reflexivity.
  - apply get_delitem_same.
  - intros k K. apply get_delitem_other. rewrite str_eqb_sym. exact K.
Qed.

Lemma dependency_remover_deps_frame_witness :
  exists deps',
    RemovePrettier.transform (VDict named_manifest)
      = inr (VDict (dict_setitem (u "devDependencies") (VDict deps')
                      named_manifest)) /\
    deps' = [(u "typescript", VStr (u "^5.0.0"))].
Proof.
  destruct (dependency_remover_deps_frame named_manifest
              [(u "prettier", VStr (u "^3.0.0"));
               (u "typescript", VStr (u "^5.0.0"))] eq_refl)
    as (deps' & T & -> & _).
  eexists. split; [exact T|reflexivity].
Defined.

(** X6: the Dependency-Remover neither adds nor drops a top-level field:
    the keys of the manifest come out as they went in, in the same order
    (the Script-Editor, by contrast, appends [scripts] when it is missing). *)
Theorem dependency_remover_keeps_keys (d d' : dict) :
  RemovePrettier.transform (VDict d) = inr (VDict d') ->
  dict_keys d' = dict_keys d.
Proof.
  rewrite remove_prettier_transform.
  destruct (dict_get (u "devDependencies") d) as [[|b|z|r|s|l|deps]|] eqn:G;
    [ | | | |destruct (str_contains s (u "prettier"))
    |destruct (existsb (py_eq_str (u "prettier")) l)
    |destruct (dict_contains (u "prettier") deps)| ];
    try discriminate; intros [= <-]; try reflexivity.
  rewrite keys_setitem.
  assert (C : dict_contains (u "devDependencies") d = true)
    by (apply contains_get; eauto).
  rewrite C. reflexivity.
Qed.

Lemma dependency_remover_keeps_keys_witness :
  exists d',
    RemovePrettier.transform (VDict named_manifest) = inr (VDict d') /\
    dict_keys d' = [u "name"; u "scripts"; u "devDependencies"].
Proof.
  eexists. split; [reflexivity|].
  apply (dependency_remover_keeps_keys named_manifest). reflexivity.
Defined.

(** ** Key order and key uniqueness *)

Lemma contains_setitem_other (k k' : str) (v : pyval) (d : dict) :
  str_eqb k k' = false ->
  dict_contains k' (dict_setitem k v d) = dict_contains k' d.
Proof.
  intros N. unfold dict_contains. rewrite get_setitem_other by exact N.
  reflexivity.
Qed.

Lemma contains_delitem_other (k k' : str) (d : dict) :
  str_eqb k k' = false ->
  dict_contains k' (dict_delitem k d) = dict_contains k' d.
Proof.
  intros N. unfold dict_contains. rewrite get_delitem_other by exact N.
  reflexivity.
Qed.

Lemma edit_scripts_keys (s : dict) :
  dict_keys (edit_scripts s)
  = filter (fun k => negb (str_eqb (u "lint:format") k)) (dict_keys s)
    ++ filter (fun k => negb (dict_contains k s)) written_keys.
Proof.
  unfold edit_scripts.
  rewrite !keys_setitem, keys_delitem, keys_setitem.
  repeat first [ rewrite contains_setitem_other by reflexivity
               | rewrite contains_delitem_other by reflexivity ].
  unfold written_keys. cbn [filter].
  destruct (dict_contains (u "build") s), (dict_contains (u "lint") s),
    (dict_contains (u "lint:fix") s), (dict_contains (u "format") s),
    (dict_contains (u "format:fix") s);
    cbn [negb]; rewrite ?filter_app, ?app_nil_r; cbn [filter];
    rewrite <- ?app_assoc; reflexivity.
Qed.

(** X7: the Script-Editor keeps the order of an existing [scripts]
    mapping: the keys that were there stay where they were (without
    [lint:format]), and those of [build], [lint], [lint:fix], [format],
    [format:fix] that were missing are appended behind them, in that
    order. *)
Theorem script_editor_key_order (d s : dict) :
  dict_get (u "scripts") d = Some (VDict s) ->
  exists s',
    ModifyPackage.transform (VDict d)
      = inr (VDict (dict_setitem (u "scripts") (VDict s') d)) /\
    dict_keys s'
    = filter (fun k => negb (str_eqb (u "lint:format") k)) (dict_keys s)
      ++ filter (fun k => negb (dict_contains k s)) written_keys.
Proof.
  intros G. exists (edit_scripts s).
  rewrite modify_package_transform, G.
  split; [reflexivity | apply edit_scripts_keys].
Qed.

Lemma script_editor_key_order_witness :
  exists s',
    ModifyPackage.transform (VDict named_manifest)
      = inr (VDict (dict_setitem (u "scripts") (VDict s') named_manifest)) /\
    dict_keys s'
    = [u "test"; u "build"; u "lint"; u "lint:fix"; u "format"; u "format:fix"].
Proof.
  destruct (script_editor_key_order named_manifest scenario_scripts eq_refl)
    as (s' & T & K).
  exists s'. split; [exact T|]. rewrite K. reflexivity.
Defined.

Lemma delitem_unique (k : str) (d : dict) :
  unique_keys d -> unique_keys (dict_delitem k d).
Proof.
  unfold unique_keys. rewrite keys_delitem. apply NoDup_filter.
Qed.

Lemma edit_scripts_unique (s : dict) :
  unique_keys s -> unique_keys (edit_scripts s).
Proof.
  intros U. unfold edit_scripts, unique_keys.
  do 4 apply setitem_unique_keys. apply delitem_unique.
  apply setitem_unique_keys. exact U.
Qed.

(** X8: both filters keep keys unique.  When the keys of the manifest
    are distinct, and so are those of the field the filter edits, the same
    holds of the manifest it puts out: no assignment or deletion duplicates
    a key. *)
Theorem filters_keep_keys_unique (f : script) (d d' : dict) :
  unique_keys d ->
  (forall s, dict_get (edited_field f) d = Some (VDict s) -> unique_keys s) ->
  transform_of f (VDict d) = inr (VDict d') ->
  unique_keys d' /\
  forall s', dict_get (edited_field f) d' = Some (VDict s') -> unique_keys s'.
Proof.
  intros U Us.
  assert (Set_ok : forall s,
    unique_keys s ->
    unique_keys (dict_setitem (edited_field f) (VDict s) d) /\
    forall s', dict_get (edited_field f)
                 (dict_setitem (edited_field f) (VDict s) d) = Some (VDict s')
               -> unique_keys s').
  { intros s S. split; [apply setitem_unique_keys; exact U|].
    intros s'. rewrite get_setitem_same. intros [= <-]. exact S. }
  revert Us Set_ok. destruct f; cbn [transform_of edited_field];
    intros Us Set_ok.
  - rewrite modify_package_transform.
    destruct (dict_get (u "scripts") d) as [[|b|z|r|s|l|s]|] eqn:G;
      try discriminate; intros [= <-]; apply Set_ok, edit_scripts_unique.
    + apply Us. reflexivity.
    + constructor.
  - rewrite remove_prettier_transform.
    destruct (dict_get (u "devDependencies") d) as [[|b|z|r|s|l|deps]|] eqn:G;
      [ | | | |destruct (str_contains s (u "prettier"))
      |destruct (existsb (py_eq_str (u "prettier")) l)
      |destruct (dict_contains (u "prettier") deps)| ];
      try discriminate; intros [= <-];
      try (split; [exact U|]; intros s'; rewrite G; try discriminate;
           intros [= <-]; apply Us; reflexivity).
    apply Set_ok, delitem_unique, Us. reflexivity.
Qed.

Lemma filters_keep_keys_unique_witness :
  exists d',
    transform_of modify_package (VDict named_manifest) = inr (VDict d') /\
    unique_keys d'.
Proof.
  eexists. split; [reflexivity|].
  apply (filters_keep_keys_unique modify_package named_manifest).
  - repeat constructor; simpl; intuition discriminate.
  - intros s [= <-]. repeat constructor; simpl; intuition discriminate.
  - reflexivity.
Defined.

(** ** The two filters together *)

Lemma setitem_comm_present (k1 k2 : str) (v1 v2 w : pyval) (d : dict) :
  str_eqb k1 k2 = false ->
  dict_get k2 d = Some w ->
  dict_setitem k2 v2 (dict_setitem k1 v1 d)
  = dict_setitem k1 v1 (dict_setitem k2 v2 d).
Proof.
  intros N. induction d as [|[k0 v0] d IH]; simpl; [discriminate|].
  destruct (str_eqb k2 k0) eqn:E2.
  - apply str_eqb_eq in E2. subst k0. rewrite N. simpl.
    rewrite str_eqb_refl, N. reflexivity.
  - intros G. destruct (str_eqb k1 k0) eqn:E1; simpl; rewrite E1, E2.
    + reflexivity.
    + rewrite (IH G). reflexivity.
Qed.

(** X9: the two filters can be piped in either order.  On every
    JSON-object manifest, the Script-Editor followed by the
    Dependency-Remover puts out the same manifest as the
    Dependency-Remover followed by the Script-Editor, and one order raises
    exactly when the other does. *)
Theorem filters_commute (d : dict) :
  and_then (ModifyPackage.transform (VDict d)) RemovePrettier.transform
  = and_then (RemovePrettier.transform (VDict d)) ModifyPackage.transform.
Proof.
  assert (Deps : forall x,
    dict_get (u "devDependencies") (dict_setitem (u "scripts") x d)
    = dict_get (u "devDependencies") d)
    by (intros x; apply get_setitem_other; reflexivity).
  assert (Scripts : forall x,
    dict_get (u "scripts") (dict_setitem (u "devDependencies") x d)
    = dict_get (u "scripts") d)
    by (intros x; apply get_setitem_other; reflexivity).
  rewrite (modify_package_transform d), (remove_prettier_transform d).
  destruct (dict_get (u "scripts") d) as [[|b|z|r|s|l|s]|] eqn:GS;
    destruct (dict_get (u "devDependencies") d) as [[|b'|z'|r'|s'|l'|deps]|]
      eqn:GD;
    try destruct (str_contains s' (u "prettier")) eqn:C;
    try destruct (existsb (py_eq_str (u "prettier")) l') eqn:C;
    try destruct (dict_contains (u "prettier") deps) eqn:C;
    cbn [and_then];
    rewrite ?modify_package_transform, ?remove_prettier_transform,
      ?Deps, ?Scripts, ?GS, ?GD, ?C;
    try reflexivity;
    do 2 f_equal; apply (setitem_comm_present _ _ _ _ (VDict deps));
    solve [reflexivity | exact GD].
Qed.

(** ** The end of the dump *)

Lemma finished_stdout (f : script) (d : dict) :
  term (main_of f (Loaded (VDict d))) = Finished ->
  exists d', stdout (main_of f (Loaded (VDict d))) = indented_object d'.
Proof.
  destruct f; cbn [main_of].
  - rewrite modify_package_main.
    destruct (ModifyPackage.transform (VDict d)) as [e|out] eqn:T;
      [discriminate|]. intros _.
    rewrite modify_package_transform in T.
    destruct (dict_get (u "scripts") d) as [[|b|z|r|s|l|s]|];
      try discriminate; injection T as <-; eexists; apply json_dumps_object.
  - rewrite remove_prettier_main.
    destruct (RemovePrettier.transform (VDict d)) as [e|out] eqn:T;
      [discriminate|]. intros _.
    rewrite remove_prettier_transform in T.
    destruct (dict_get (u "devDependencies") d) as [[|b|z|r|s|l|deps]|];
      [ | | | |destruct (str_contains s (u "prettier"))
      |destruct (existsb (py_eq_str (u "prettier")) l)
      |destruct (dict_contains (u "prettier") deps)| ];
      try discriminate; injection T as <-; eexists; apply json_dumps_object.
Qed.

(** X10: neither script prints a newline after the dump: on a run that
    completes on an object, the last character on standard output is the
    closing brace. *)
Theorem dump_ends_with_brace (f : script) (d : dict) :
  term (main_of f (Loaded (VDict d))) = Finished ->
  last (stdout (main_of f (Loaded (VDict d)))) LF = 125%N.
Proof.
  intros Done. destruct (finished_stdout f d Done) as (d' & ->).
  destruct d' as [|kv d']; [reflexivity|].
  unfold indented_object.
  change (u "}") with [125%N]. rewrite !app_assoc. apply last_last.
Qed.

Lemma dump_ends_with_brace_witness :
  term (main_of remove_prettier (Loaded (VDict named_manifest))) = Finished /\
  last (stdout (main_of remove_prettier (Loaded (VDict named_manifest)))) LF
    = 125%N.
Proof.
  split; [reflexivity|].
  apply (dump_ends_with_brace remove_prettier named_manifest). reflexivity.
Defined.

(** ** The characters of the dump *)

Lemma ascii_text_app (a b : str) :
  ascii_text (a ++ b) = ascii_text a && ascii_text b.
Proof. apply forallb_app. Qed.

Lemma printable_range (c : N) :
  (32 <= c <= 126)%N -> printable_ascii c = true.
Proof.
  intros [Lo Hi]. unfold printable_ascii.
  apply orb_true_iff. right. apply andb_true_iff.
  split; apply N.leb_le; assumption.
Qed.

Lemma hex_digit_printable (n : N) :
  (n < 16)%N -> printable_ascii (hex_digit n) = true.
Proof.
  intros B. unfold hex_digit. apply printable_range.
  destruct (n <? 10)%N eqn:E.
  - apply N.ltb_lt in E. lia.
  - lia.
Qed.

Lemma unicode_escape_ascii (n : N) : ascii_text (unicode_escape n) = true.
Proof.
  unfold unicode_escape, hex4, ascii_text. cbn [forallb].
  rewrite !hex_digit_printable by (apply N.mod_lt; discriminate).
  reflexivity.
Qed.

Lemma escape_char_ascii (c : N) : ascii_text (escape_char c) = true.
Proof.
  unfold escape_char.
  repeat match goal with
         | |- context [if ?b then _ else _] => destruct b eqn:?
         end;
    try reflexivity;
    rewrite ?ascii_text_app, ?unicode_escape_ascii; try reflexivity.
  unfold ascii_text, printable_ascii. cbn [forallb].
  match goal with H : (_ && _)%bool = true |- _ => rewrite H end.
  rewrite orb_true_r. reflexivity.
Qed.

Lemma encode_basestring_ascii_ascii (s : str) :
  ascii_text (encode_basestring_ascii s) = true.
Proof.
  unfold encode_basestring_ascii.
  change (QUOTE :: flat_map escape_char s ++ [QUOTE])
    with ([QUOTE] ++ flat_map escape_char s ++ [QUOTE]).
  rewrite !ascii_text_app.
  assert (E : ascii_text (flat_map escape_char s) = true).
  { induction s as [|c s IH]; [reflexivity|]. simpl.
    rewrite ascii_text_app, escape_char_ascii, IH. reflexivity. }
  rewrite E. reflexivity.
Qed.

Lemma u_String (c : ascii) (s : string) : u (String c s) = N_of_ascii c :: u s.
Proof. reflexivity. Qed.

Lemma uint_repr_ascii (d : Decimal.uint) :
  ascii_text (u (NilEmpty.string_of_uint d)) = true.
Proof.
  induction d; cbn [NilEmpty.string_of_uint]; [reflexivity|..];
    rewrite u_String; unfold ascii_text in *; cbn [forallb];
    rewrite IHd; reflexivity.
Qed.

Lemma int_repr_ascii (z : Z) : ascii_text (int_repr z) = true.
Proof.
  unfold int_repr, NilEmpty.string_of_int.
  destruct (Z.to_int z) as [d|d].
  - apply uint_repr_ascii.
  - rewrite u_String. unfold ascii_text. cbn [forallb].
    fold (ascii_text (u (NilEmpty.string_of_uint d))).
    rewrite uint_repr_ascii. reflexivity.
Qed.

Lemma floatstr_ascii (r : str) :
  ascii_text r = true -> ascii_text (floatstr r) = true.
Proof.
  intros A. unfold floatstr.
  repeat match goal with
         | |- context [if ?b then _ else _] => destruct b
         end; solve [reflexivity | exact A].
Qed.

Lemma newline_indent_ascii (indent level : nat) :
  ascii_text (newline_indent indent level) = true.
Proof.
  unfold newline_indent, ascii_text. cbn [forallb].
  induction (indent * level)%nat as [|n IH]; [reflexivity|].
  simpl. exact IH.
Qed.

Lemma str_join_ascii (sep : str) (parts : list str) :
  ascii_text sep = true ->
  Forall (fun p => ascii_text p = true) parts ->
  ascii_text (str_join sep parts) = true.
Proof.
  intros S. induction 1 as [|p parts Hp Hparts IH]; [reflexivity|].
  destruct parts as [|q parts]; [exact Hp|].
  change (str_join sep (p :: q :: parts))
    with (p ++ sep ++ str_join sep (q :: parts)).
  rewrite !ascii_text_app, Hp, S, IH. reflexivity.
Qed.

Lemma iterencode_ascii (indent : nat) (v : pyval) :
  forall level,
    ascii_floats v = true -> ascii_text (iterencode indent level v) = true.
Proof.
  induction v as [|b|z|r|s|l IH|d IH] using pyval_nested_ind;
    intros level Floats.
  - reflexivity.
  - destruct b; reflexivity.
  - apply int_repr_ascii.
  - apply floatstr_ascii. exact Floats.
  - apply encode_basestring_ascii_ascii.
  - destruct l as [|x l]; [reflexivity|].
    change (iterencode indent level (VList (x :: l)))
      with (u "[" ++ newline_indent indent (S level)
            ++ str_join (u "," ++ newline_indent indent (S level))
                 (map (iterencode indent (S level)) (x :: l))
            ++ newline_indent indent level ++ u "]").
    rewrite !ascii_text_app, !newline_indent_ascii, str_join_ascii;
      [reflexivity | rewrite ascii_text_app, newline_indent_ascii; reflexivity |].
    apply Forall_map.
    cbn [ascii_floats] in Floats. rewrite forallb_forall in Floats.
    rewrite Forall_forall in *. intros y Y. apply IH; auto.
  - destruct d as [|kv d]; [reflexivity|].
    change (iterencode indent level (VDict (kv :: d)))
      with (u "{" ++ newline_indent indent (S level)
            ++ str_join (u "," ++ newline_indent indent (S level))
                 (map (fun kv => encode_basestring_ascii (fst kv) ++ u ": "
                                 ++ iterencode indent (S level) (snd kv))
                      (kv :: d))
            ++ newline_indent indent level ++ u "}").
    rewrite !ascii_text_app, !newline_indent_ascii, str_join_ascii;
      [reflexivity | rewrite ascii_text_app, newline_indent_ascii; reflexivity |].
    apply Forall_map.
    cbn [ascii_floats] in Floats. rewrite forallb_forall in Floats.
    rewrite Forall_forall in *. intros y Y.
    rewrite !ascii_text_app, encode_basestring_ascii_ascii, IH; auto.
Qed.

Lemma ascii_floats_get (k : str) (d : dict) (x : pyval) :
  ascii_floats (VDict d) = true -> dict_get k d = Some x ->
  ascii_floats x = true.
Proof.
  cbn [ascii_floats]. induction d as [|[k0 v0] d IH]; simpl; [discriminate|].
  rewrite andb_true_iff. intros [A0 A].
  destruct (str_eqb k k0); [intros [= <-]; exact A0 | apply IH; exact A].
Qed.

Lemma ascii_floats_setitem (k : str) (v : pyval) (d : dict) :
  ascii_floats v = true -> ascii_floats (VDict d) = true ->
  ascii_floats (VDict (dict_setitem k v d)) = true.
Proof.
  cbn [ascii_floats]. intros Av.
  induction d as [|[k0 v0] d IH]; simpl.
  - rewrite Av. reflexivity.
  - rewrite andb_true_iff. intros [A0 A].
    destruct (str_eqb k k0); simpl.
    + rewrite Av, A. reflexivity.
    + rewrite A0, (IH A). reflexivity.
Qed.

Lemma ascii_floats_delitem (k : str) (d : dict) :
  ascii_floats (VDict d) = true ->
  ascii_floats (VDict (dict_delitem k d)) = true.
Proof.
  cbn [ascii_floats]. unfold dict_delitem.
  induction d as [|[k0 v0] d IH]; simpl; [reflexivity|].
  rewrite andb_true_iff. intros [A0 A].
  destruct (str_eqb k k0); simpl; [|rewrite A0]; apply IH; exact A.
Qed.

Lemma ascii_floats_edit_scripts (s : dict) :
  ascii_floats (VDict s) = true -> ascii_floats (VDict (edit_scripts s)) = true.
Proof.
  intros A. unfold edit_scripts.
  repeat first [ apply ascii_floats_setitem; [reflexivity|]
               | apply ascii_floats_delitem ].
  exact A.
Qed.

(** X11: standard output is 7-bit clean.  Whatever the document holds
    (accented letters, emoji, control characters in keys or values), both
    filters write only line feeds and characters from [' '] to ['~']:
    [json.dump] is called with its default [ensure_ascii], which turns
    every other character into a [\uXXXX] escape. *)
Theorem stdout_is_ascii (f : script) (v : pyval) :
  ascii_floats v = true ->
  ascii_text (stdout (main_of f (Loaded v))) = true.
Proof.
  intros A. destruct (is_dict v) eqn:D.
  - destruct v as [|b|z|r|s|l|d]; try discriminate.
    destruct f; cbn [main_of].
    + rewrite modify_package_main, modify_package_transform.
      destruct (dict_get (u "scripts") d) as [[|b|z|r|s|l|s]|] eqn:G;
        try reflexivity; cbn [stdout]; apply iterencode_ascii;
        apply ascii_floats_setitem; try exact A;
        apply ascii_floats_edit_scripts; [|reflexivity].
      apply (ascii_floats_get (u "scripts") d _ A G).
    + rewrite remove_prettier_main, remove_prettier_transform.
      destruct (dict_get (u "devDependencies") d) as [[|b|z|r|s|l|deps]|]
        eqn:G;
        [ | | | |destruct (str_contains s (u "prettier"))
        |destruct (existsb (py_eq_str (u "prettier")) l)
        |destruct (dict_contains (u "prettier") deps)| ];
        try reflexivity; cbn [stdout]; apply iterencode_ascii;
        try exact A.
      apply ascii_floats_setitem; [|exact A].
      apply ascii_floats_delitem.
      apply (ascii_floats_get (u "devDependencies") d _ A G).
  - destruct f; cbn [main_of].
    + rewrite (modify_package_main_non_object v D). reflexivity.
    + rewrite (remove_prettier_main_non_object v D).
      destruct (py_contains (u "devDependencies") v) as [e|[|]];
        try reflexivity.
      cbn [stdout]. apply iterencode_ascii. exact A.
Qed.

Lemma stdout_is_ascii_witness :
  ascii_floats (VDict unicode_manifest) = true /\
  ascii_text (stdout (main_of modify_package (Loaded (VDict unicode_manifest))))
    = true.
Proof.
  split; [reflexivity|].
  apply (stdout_is_ascii modify_package (VDict unicode_manifest)). reflexivity.
Defined.

(** ** Runs that fail *)

(** X12: a run on a parsed document either completes or dies of a
    [TypeError] with both streams still empty.  The membership tests in
    front of the two [del] statements rule out a [KeyError], and every
    [print] and the dump come after the last statement that can raise, so
    a failing run has written nothing. *)
Theorem failing_runs_write_nothing (f : script) (v : pyval) :
  term (main_of f (Loaded v)) = Finished \/
  main_of f (Loaded v) = mkOutcome [] [] (Uncaught TypeError).
Proof.
  destruct (is_dict v) eqn:D.
  - destruct v as [|b|z|r|s|l|d]; try discriminate.
    destruct f; cbn [main_of].
    + rewrite modify_package_main, modify_package_transform.
      destruct (dict_get (u "scripts") d) as [[|b|z|r|s|l|s]|];
        (left; reflexivity) || (right; reflexivity).
    + rewrite remove_prettier_main, remove_prettier_transform.
      destruct (dict_get (u "devDependencies") d) as [[|b|z|r|s|l|deps]|];
        [ | | | |destruct (str_contains s (u "prettier"))
        |destruct (existsb (py_eq_str (u "prettier")) l)
        |destruct (dict_contains (u "prettier") deps)| ];
        (left; reflexivity) || (right; reflexivity).
  - destruct f; cbn [main_of].
    + right. apply (modify_package_main_non_object v D).
    + rewrite (remove_prettier_main_non_object v D).
      destruct (py_contains (u "devDependencies") v) as [e|[|]];
        (left; reflexivity) || (right; reflexivity).
Qed.
